(** * Decode-Indias-Fields: the Flask backend [app.py]

    A shallow embedding of the two request handlers of [app.py],
    [analyze_crop] and [get_farming_tips], of the Python string
    methods the second one chains ([str.replace], [str.strip]), and of the
    block that configures the Gemini client when the module is loaded.

    Python strings are sequences of Unicode code points, so a string is a
    list of code points here; the prompt of the source holds three emoji
    beyond the ASCII range and [str.strip] removes Unicode white space. *)

From Stdlib Require Import Ascii String.
From Stdlib Require Import List NArith ZArith Bool Lia.
From Stdlib Require Import Floats.SpecFloat.
Import ListNotations.

(** ** Python [str] *)

Module PyStr.

Definition char := N.
Definition str := list char.

(** An ASCII literal of the source, as code points. *)
Definition lit (s : string) : str := map N_of_ascii (list_ascii_of_string s).

Definition char_eqb (a b : char) : bool := N.eqb a b.

Fixpoint eqb (a b : str) : bool :=
  match a, b with
  | [], [] => true
  | x :: a', y :: b' => char_eqb x y && eqb a' b'
  | _, _ => false
  end.

(** [s.startswith(p)] *)
Fixpoint startswith (p s : str) : bool :=
  match p, s with
  | [], _ => true
  | _ :: _, [] => false
  | x :: p', y :: s' => char_eqb x y && startswith p' s'
  end.

(** [p in s]: some position of [s] starts with [p]. *)
Fixpoint contains (p s : str) : bool :=
  startswith p s ||
  match s with
  | [] => false
  | _ :: s' => contains p s'
  end.

(** The same as a proposition: [s] splits around a copy of [p]. *)
Definition occurs (p s : str) : Prop := exists a b, s = a ++ p ++ b.

(** *** [str.replace(old, new)]

    CPython scans from the left and replaces the non-overlapping
    occurrences of [old] in the order it meets them.  [skip] counts the
    characters of a matched occurrence still to be passed over.  With an
    empty [old], [new] is put before every character and at the end. *)
Section Replace.

Variables old new : str.

Fixpoint replace_scan (skip : nat) (s : str) : str :=
  match s with
  | [] => []
  | c :: s' =>
      match skip with
      | S k => replace_scan k s'
      | O =>
          if startswith old s
          then new ++ replace_scan (length old - 1) s'
          else c :: replace_scan 0 s'
      end
  end.

Definition replace (s : str) : str :=
  match old with
  | [] => new ++ concat (map (fun c => c :: new) s)
  | _ :: _ => replace_scan 0 s
  end.

End Replace.

(** *** [str.strip()]

    Without argument [strip] removes the characters for which
    [Py_UNICODE_ISSPACE] holds from both ends: the ASCII controls
    U+0009..U+000D and U+001C..U+001F, the space, and the Unicode white
    space U+0085, U+00A0, U+1680, U+2000..U+200A, U+2028, U+2029, U+202F,
    U+205F and U+3000. *)
Definition isspace (c : char) : bool :=
  ((9 <=? c) && (c <=? 13) ||
   (28 <=? c) && (c <=? 32) ||
   (c =? 133) || (c =? 160) || (c =? 5760) ||
   (8192 <=? c) && (c <=? 8202) ||
   (c =? 8232) || (c =? 8233) || (c =? 8239) || (c =? 8287) ||
   (c =? 12288))%N.

Fixpoint lstrip (s : str) : str :=
  match s with
  | [] => []
  | c :: s' => if isspace c then lstrip s' else s
  end.

Definition rstrip (s : str) : str := rev (lstrip (rev s)).

Definition strip (s : str) : str := rstrip (lstrip s).

(** White space at the left end, at the right end. *)
Definition leading_space (s : str) : bool :=
  match s with
  | [] => false
  | c :: _ => isspace c
  end.

Definition trailing_space (s : str) : bool := leading_space (rev s).

End PyStr.

Import PyStr.

(** ** The clean-up of the model's answer

    [response.text.replace("```html", "").replace("```", "").strip()] *)

Definition backtick : char := 96%N.
Definition fence : str := [backtick; backtick; backtick].
Definition fence_html : str := fence ++ lit "html".

Definition cleaned_tips (text : str) : str :=
  strip (replace fence [] (replace fence_html [] text)).

(** ** JSON values, as [request.get_json()] hands them to Python *)

#[local] Set Warnings "-register-all".

Inductive json : Type :=
| JNull                                   (* None *)
| JBool (b : bool)
| JInt (n : Z)
| JFloat (f : spec_float)
| JStr (s : str)
| JArr (items : list json)
| JObj (fields : list (str * json)).     (* dict, in insertion order *)

(** Python truth value: what [not v] negates. *)
Definition truthy (v : json) : bool :=
  match v with
  | JNull => false
  | JBool b => b
  | JInt n => negb (n =? 0)%Z
  | JFloat (S754_zero _) => false
  | JFloat _ => true
  | JStr s => negb (eqb s [])
  | JArr items => match items with [] => false | _ :: _ => true end
  | JObj fields => match fields with [] => false | _ :: _ => true end
  end.

(** [d.get(key)] on a dict: the value bound to [key], or [None]. *)
Fixpoint dict_get (key : str) (fields : list (str * json)) : json :=
  match fields with
  | [] => JNull
  | (k, v) :: rest => if eqb k key then v else dict_get key rest
  end.

(** ** Exceptions, responses and the trace of a request *)

(** A raised exception: whether its class derives from [Exception] (every
    error does; [KeyboardInterrupt], [SystemExit] and [GeneratorExit]
    derive from [BaseException] only) and what [str(e)] gives. *)
Record exn : Type := Exn { is_Exception : bool; message : str }.

Definition type_name (v : json) : string :=
  match v with
  | JNull => "NoneType"
  | JBool _ => "bool"
  | JInt _ => "int"
  | JFloat _ => "float"
  | JStr _ => "str"
  | JArr _ => "list"
  | JObj _ => "dict"
  end.

Definition AttributeError (v : json) (attr : string) : exn :=
  Exn true (lit "'" ++ lit (type_name v) ++ lit "' object has no attribute '"
            ++ lit attr ++ lit "'").

(** [data.get(key)]: only a dict has the method. *)
Definition py_get (data : json) (key : str) : exn + json :=
  match data with
  | JObj fields => inr (dict_get key fields)
  | _ => inl (AttributeError data "get")
  end.

(** What a view function ends with: a body for [jsonify] and a status
    code, or an exception that leaves the function. *)
Inductive outcome : Type :=
| Responds (status : Z) (body : json)
| Propagates (e : exn).

(** One run of a handler: its outcome, the prompts it sent to the external
    service, and what it printed, one text for each call of [print] (a
    text may hold line breaks of its own). *)
Record run : Type := Run {
  result : outcome;
  calls : list str;
  printed : list str
}.

(** [request.get_json()]: the parsed body, or the HTTP error werkzeug
    raises for a body it cannot take as JSON. *)
Inductive get_json_result : Type :=
| GetJsonReturns (data : json)
| GetJsonRaises (e : exn).

(** ** The external generative-language client *)

(** [response.text] is a property and may raise. *)
Inductive text_result : Type :=
| TextIs (text : str)
| TextRaises (e : exn).

Inductive call_result : Type :=
| CallReturns (response_text : text_result)
| CallRaises (e : exn).

Record GenerativeModel : Type := {
  generate_content : str -> call_result
}.

(** ** [POST /get-farming-tips] *)

Definition nl : str := [10%N].
Definition dquote : str := [34%N].
Definition droplet : char := 128167%N.   (* U+1F4A7 *)
Definition bug : char := 128027%N.       (* U+1F41B *)
Definition seedling : char := 127793%N.  (* U+1F331 *)

Definition persona : str :=
  lit "Act as an expert agronomist specializing in smallholder farms in Northern India.".

Definition format_rules : list str :=
  [ lit "IMPORTANT: Format the entire response as an HTML unordered list (`<ul>`). ";
    lit "Each list item (`<li>`) should contain one tip.";
    lit "Each tip should start with a relevant emoji." ].

Definition example_items : list str :=
  [ lit "<li>" ++ [droplet] ++ lit " **Water Management:** Ensure consistent watering to prevent blossom-end rot. Drip irrigation is highly effective.</li>";
    lit "<li>" ++ [bug] ++ lit " **Pest Control:** Regularly inspect for hornworms and use neem oil as a natural pesticide.</li>";
    lit "<li>" ++ [seedling] ++ lit " **Soil Health:** Maintain a soil pH between 6.2 and 6.8 and enrich with compost before planting.</li>" ].

(** The worked example of the template, from its heading to [</ul>]. *)
Definition worked_example : str :=
  lit "Example for " ++ dquote ++ lit "Tomatoes" ++ dquote ++ lit ":" ++ nl ++
  lit "    <ul>" ++ nl ++
  concat (map (fun item => lit "        " ++ item ++ nl) example_items) ++
  lit "    </ul>".

(** The f-string of the source, line by line; [crop_name] stands for the
    text its two replacement fields format to. *)
Definition prompt (crop_name : str) : str :=
  nl ++
  lit "    " ++ persona ++ nl ++
  lit "    Provide practical, concise farming tips for the crop: " ++ crop_name ++ lit "." ++ nl ++
  lit "    The audience is a tech-savvy individual at a hackathon, so the tips should be clear and actionable." ++ nl ++
  lit "    " ++ nl ++
  concat (map (fun rule => lit "    " ++ rule ++ nl) format_rules) ++
  lit "    " ++ nl ++
  lit "    " ++ worked_example ++ nl ++
  nl ++
  lit "    Generate the tips for " ++ crop_name ++ lit " now." ++ nl ++
  lit "    ".

Definition error_body (msg : string) : json := JObj [(lit "error", JStr (lit msg))].

Section TipGenerator.

(** [str(v)] of a value that is not a string, the builtin an f-string field
    applies; a [str] formats to itself. *)
Variable py_str : json -> str.

Definition format_field (v : json) : str :=
  match v with
  | JStr s => s
  | _ => py_str v
  end.

(** The [except Exception as e] clause around the external call. *)
Definition except_Exception (sent : list str) (e : exn) : run :=
  if is_Exception e
  then Run (Responds 500 (error_body "Failed to get tips from Gemini API"))
           sent
           [lit "Error calling Gemini API: " ++ message e]
  else Run (Propagates e) sent [].

(** [model] is the module-level client: [None] when the configuration at
    start-up failed.  [request] is what [request.get_json()] gives. *)
Definition get_farming_tips (model : option GenerativeModel)
                            (request : get_json_result) : run :=
  match model with
  | None => Run (Responds 500 (error_body "Gemini API not configured")) [] []
  | Some m =>
      match request with
      | GetJsonRaises e => Run (Propagates e) [] []
      | GetJsonReturns data =>
          match py_get data (lit "cropName") with
          | inl e => Run (Propagates e) [] []
          | inr crop_name =>
              if negb (truthy crop_name)
              then Run (Responds 400 (error_body "Crop name is required")) [] []
              else
                let prompt := prompt (format_field crop_name) in
                match generate_content m prompt with
                | CallRaises e => except_Exception [prompt] e
                | CallReturns (TextRaises e) => except_Exception [prompt] e
                | CallReturns (TextIs text) =>
                    Run (Responds 200 (JObj [(lit "tips", JStr (cleaned_tips text))]))
                        [prompt] []
                end
          end
      end
  end.

End TipGenerator.

(** ** [POST /analyze-crop] *)

Definition possible_crops : list str :=
  [lit "Wheat"; lit "Rice"; lit "Sugarcane"; lit "Cotton"; lit "Mustard"].

Section CropSimulator.

(** The generator behind the [random] module: its state, and
    [_randbelow(n)], the one primitive [choice] and [randint] draw from. *)
Context {rng : Type}.
Variable randbelow : nat -> rng -> nat * rng.

(** [random.choice(seq)] *)
Definition choice (seq : list str) (g : rng) : (exn + str) * rng :=
  match seq with
  | [] => (inl (Exn true (lit "Cannot choose from an empty sequence")), g)
  | _ :: _ =>
      let (i, g') := randbelow (length seq) g in
      match nth_error seq i with
      | Some x => (inr x, g')
      | None => (inl (Exn true (lit "list index out of range")), g')
      end
  end.

(** [random.randint(a, b)], that is [randrange(a, b + 1)] *)
Definition randint (a b : Z) (g : rng) : (exn + Z) * rng :=
  let width := (b + 1 - a)%Z in
  if (0 <? width)%Z
  then let (k, g') := randbelow (Z.to_nat width) g in (inr (a + Z.of_nat k)%Z, g')
  else (inl (Exn true (lit "empty range for randrange()")), g).

(** The view reads nothing of the request; [request] is the ambient Flask
    request it is invoked under. *)
Definition analyze_crop (request : get_json_result) (g : rng) : outcome * rng :=
  let (picked, g1) := choice possible_crops g in
  match picked with
  | inl e => (Propagates e, g1)
  | inr detected_crop =>
      let (drawn, g2) := randint 85 98 g1 in
      match drawn with
      | inl e => (Propagates e, g2)
      | inr confidence_score =>
          (Responds 200 (JObj [(lit "crop", JStr detected_crop);
                               (lit "confidence", JInt confidence_score)]),
           g2)
      end
  end.

End CropSimulator.

(** ** Vocabulary for the statements *)

(** A request whose body is the JSON object with the single field
    [cropName]. *)
Definition tip_request (crop_name : json) : get_json_result :=
  GetJsonReturns (JObj [(lit "cropName", crop_name)]).

(** Clients with a fixed behaviour: one that answers [text], one whose call
    raises [e], one whose answer raises [e] when its text is read. *)
Definition answering (text : str) : GenerativeModel :=
  {| generate_content := fun _ => CallReturns (TextIs text) |}.

Definition failing (e : exn) : GenerativeModel :=
  {| generate_content := fun _ => CallRaises e |}.

Definition unreadable (e : exn) : GenerativeModel :=
  {| generate_content := fun _ => CallReturns (TextRaises e) |}.

(** A text given by its fences: [first], then each marker followed by the
    text up to the next one. *)
Inductive marker : Type := Fence | FenceHtml.

Definition marker_text (m : marker) : str :=
  match m with
  | Fence => fence
  | FenceHtml => fence_html
  end.

Definition fenced (first : str) (rest : list (marker * str)) : str :=
  first ++ concat (map (fun mu => marker_text (fst mu) ++ snd mu) rest).

Definition unfenced (first : str) (rest : list (marker * str)) : str :=
  first ++ concat (map (fun mu => snd mu) rest).

(** The markers are all the backticks of the text, and a plain fence is
    one that [html] does not follow. *)
Definition marked_off (mu : marker * str) : Prop :=
  ~ In backtick (snd mu) /\
  (fst mu = Fence -> startswith (lit "html") (snd mu) = false).

(** A concrete generator to run the simulator with: a counter reduced
    modulo the bound. *)
Definition counter_randbelow (n : nat) (g : nat) : nat * nat := (g mod n, S g).

(** ** The configuration of the client when the module is loaded

    The [try] block at the top of [app.py]: it reads [GEMINI_API_KEY],
    hands it to [genai.configure], builds the ['gemini-pro'] model, and
    leaves [model = None] behind when any of this raises an [Exception]. *)

(** What is raised inside the block: an instance of [KeyError], with what
    [str(e)] gives, or an exception of another class. *)
Inductive raised : Type :=
| KeyError (text : str)
| OtherError (e : exn).

(** The two entry points of [google.generativeai] the block calls:
    [configure(api_key=...)], which returns nothing or raises, and the
    constructor [GenerativeModel(name)]. *)
Record genai : Type := {
  configure : str -> option raised;
  new_GenerativeModel : str -> raised + GenerativeModel
}.

Inductive library_call : Type :=
| Configure (api_key : str)
| NewGenerativeModel (model_name : str).

(** How the block ends: the value of the global [model], or the exception
    that aborts the import; the library calls made; the lines printed. *)
Record startup : Type := Startup {
  loaded : exn + option GenerativeModel;
  library_calls : list library_call;
  startup_printed : list str
}.

(** [KeyError("GEMINI_API_KEY not found in environment variables.")]:
    [str] of a [KeyError] is the [repr] of its argument, quotes included. *)
Definition key_not_found : raised :=
  KeyError (lit "'GEMINI_API_KEY not found in environment variables.'").

(** The clauses [except KeyError as e] and [except Exception as e]. *)
Definition except_clauses (made : list library_call) (r : raised) : startup :=
  match r with
  | KeyError text =>
      Startup (inr None) made
        [ lit "ERROR: " ++ text;
          lit "Please create a .env file and add GEMINI_API_KEY='your_key_here'" ]
  | OtherError e =>
      if is_Exception e
      then Startup (inr None) made
             [ lit "An unexpected error occurred during Gemini configuration: "
               ++ message e ]
      else Startup (inl e) made []
  end.

(** [GEMINI_API_KEY] is what [os.getenv("GEMINI_API_KEY")] returns. *)
Definition gemini_api_configuration
    (GEMINI_API_KEY : option str) (lib : genai) : startup :=
  match GEMINI_API_KEY with
  | None => except_clauses [] key_not_found
  | Some [] => except_clauses [] key_not_found
  | Some api_key =>
      match configure lib api_key with
      | Some r => except_clauses [Configure api_key] r
      | None =>
          let made := [Configure api_key; NewGenerativeModel (lit "gemini-pro")] in
          match new_GenerativeModel lib (lit "gemini-pro") with
          | inl r => except_clauses made r
          | inr model =>
              Startup (inr (Some model)) made
                [ lit "Gemini API configured successfully." ]
          end
      end
  end.

(** A request to [/get-farming-tips] in a process started with this
    environment and library: the handler reads the global [model] the
    block above has set. *)
Definition get_farming_tips_in_process
    (py_str : json -> str) (GEMINI_API_KEY : option str) (lib : genai)
    (request : get_json_result) : exn + run :=
  match loaded (gemini_api_configuration GEMINI_API_KEY lib) with
  | inl e => inl e
  | inr model => inr (get_farming_tips py_str model request)
  end.

(** ** More vocabulary for the statements *)

(** A library in which both calls succeed and the constructor gives [m]. *)
Definition working_genai (m : GenerativeModel) : genai :=
  {| configure := fun _ => None;
     new_GenerativeModel := fun _ => inr m |}.

(** [erased P s r]: [r] is [s] with some characters taken out, all of them
    satisfying [P]; what stays keeps its order. *)
Inductive erased (P : char -> bool) : str -> str -> Prop :=
| erased_nil : erased P [] []
| erased_keep (c : char) (s r : str) : erased P s r -> erased P (c :: s) (c :: r)
| erased_drop (c : char) (s r : str) :
    P c = true -> erased P s r -> erased P (c :: s) r.

(** The characters the clean-up can take out: white space and those of
    the tagged fence. *)
Definition removable (c : char) : bool :=
  isspace c || existsb (char_eqb c) fence_html.

(** The prompt the handler builds for a request body. *)
Definition prompt_for (py_str : json -> str) (fields : list (str * json)) : str :=
  prompt (format_field py_str (dict_get (lit "cropName") fields)).

Definition is_crop_field (field : str * json) : bool :=
  eqb (fst field) (lit "cropName").

(** A generator that plays back a script of draws, each reduced modulo the
    bound. *)
Definition scripted_randbelow (n : nat) (g : list nat) : nat * list nat :=
  (hd 0 g mod n, tl g).

(** * The model at work *)

Example cleaned_wrapped :
  cleaned_tips (lit "```html" ++ [10%N] ++ lit "<ul></ul>" ++ [10%N] ++ lit "```" ++ [10%N])
  = lit "<ul></ul>".
Proof. reflexivity. Qed.

Example replace_empty_old :
  replace [] (lit "-") (lit "abc") = lit "-a-b-c-".
Proof. reflexivity. Qed.

Example replace_non_overlapping :
  replace (lit "aa") (lit "b") (lit "aaaaa") = lit "bba".
Proof. reflexivity. Qed.

Example analyze_crop_run :
  fst (analyze_crop counter_randbelow (GetJsonReturns JNull) 7)
  = Responds 200 (JObj [(lit "crop", JStr (lit "Sugarcane"));
                        (lit "confidence", JInt 93)]).
Proof. reflexivity. Qed.

Example strip_unicode_space :
  strip ([160%N; 9%N] ++ lit "a b" ++ [8232%N; 10%N]) = lit "a b".
Proof. reflexivity. Qed.

Example tips_for_tomatoes :
  get_farming_tips (fun _ => [])
    (Some (answering (lit "```html" ++ nl ++ lit "<ul><li>Stake early.</li></ul>" ++ nl ++ lit "```")))
    (tip_request (JStr (lit "Tomatoes")))
  = Run (Responds 200 (JObj [(lit "tips", JStr (lit "<ul><li>Stake early.</li></ul>"))]))
        [prompt (lit "Tomatoes")] [].
Proof. reflexivity. Qed.

(** A body that is no JSON object has no [get]: the [AttributeError]
    leaves the view, outside the [try]. *)
Example body_is_a_list :
  get_farming_tips (fun _ => []) (Some (answering [])) (GetJsonReturns (JArr []))
  = Run (Propagates (Exn true (lit "'list' object has no attribute 'get'"))) [] [].
Proof. reflexivity. Qed.

(** An error of the call is caught and printed; an interrupt, which is no
    [Exception], is not. *)
Example call_times_out :
  get_farming_tips (fun _ => [])
    (Some (failing (Exn true (lit "504 Deadline Exceeded"))))
    (tip_request (JStr (lit "Rice")))
  = Run (Responds 500 (error_body "Failed to get tips from Gemini API"))
        [prompt (lit "Rice")]
        [lit "Error calling Gemini API: 504 Deadline Exceeded"].
Proof. reflexivity. Qed.

Example answer_unreadable :
  result (get_farming_tips (fun _ => [])
            (Some (unreadable (Exn true (lit "response has no valid part"))))
            (tip_request (JStr (lit "Rice"))))
  = Responds 500 (error_body "Failed to get tips from Gemini API").
Proof. reflexivity. Qed.

Example call_interrupted :
  get_farming_tips (fun _ => []) (Some (failing (Exn false [])))
    (tip_request (JStr (lit "Rice")))
  = Run (Propagates (Exn false [])) [prompt (lit "Rice")] [].
Proof. reflexivity. Qed.

(** * Facts about the string methods *)

Section StrFacts.

Lemma char_eqb_eq (a b : char) : char_eqb a b = true <-> a = b.
Proof. apply N.eqb_eq. Qed.

Lemma eqb_eq (a b : str) : eqb a b = true <-> a = b.
Proof.
  revert b; induction a as [|x a IH]; intros [|y b]; simpl; split;
    try congruence; try reflexivity.
  - rewrite andb_true_iff, char_eqb_eq, IH. intros [-> ->]; reflexivity.
  - intros E; injection E as -> ->.
    rewrite andb_true_iff, char_eqb_eq, IH; split; reflexivity.
Qed.

Lemma startswith_app (p b : str) : startswith p (p ++ b) = true.
Proof.
  induction p as [|x p IH]; simpl; [reflexivity|].
  unfold char_eqb; rewrite N.eqb_refl; exact IH.
Qed.

Lemma startswith_spec (p s : str) :
  startswith p s = true <-> exists b, s = p ++ b.
Proof.
  split.
  - revert s; induction p as [|x p IH]; intros s H.
    + exists s; reflexivity.
    + destruct s as [|y s]; simpl in H; [discriminate|].
      apply andb_true_iff in H as [Hc Hs].
      apply char_eqb_eq in Hc as ->.
      destruct (IH _ Hs) as [b ->]. exists b; reflexivity.
  - intros [b ->]; apply startswith_app.
Qed.

Lemma contains_here (p s : str) : startswith p s = true -> contains p s = true.
Proof. intros H; destruct s; simpl; rewrite H; reflexivity. Qed.

Lemma contains_spec (p s : str) : contains p s = true <-> occurs p s.
Proof.
  split.
  - induction s as [|c s IH]; simpl; intros H.
    + rewrite orb_false_r in H. apply startswith_spec in H as [b ->].
      exists [], b; reflexivity.
    + apply orb_true_iff in H as [H|H].
      * apply startswith_spec in H as [b ->]. exists [], b; reflexivity.
      * destruct (IH H) as (a & b & ->). exists (c :: a), b; reflexivity.
  - intros (a & b & ->). induction a as [|c a IH]; simpl.
    + apply contains_here, startswith_app.
    + rewrite IH; apply orb_true_r.
Qed.

Lemma contains_false (p s : str) : contains p s = false <-> ~ occurs p s.
Proof.
  rewrite <- contains_spec. destruct (contains p s); split; congruence.
Qed.

Lemma occurs_refl (p : str) : occurs p p.
Proof. exists [], []; simpl; rewrite app_nil_r; reflexivity. Qed.

Lemma occurs_trans (p q s : str) : occurs p q -> occurs q s -> occurs p s.
Proof.
  intros (a & b & ->) (a' & b' & ->).
  exists (a' ++ a), (b ++ b'). rewrite <- !app_assoc; reflexivity.
Qed.

Lemma occurs_app_l (p a s : str) : occurs p s -> occurs p (a ++ s).
Proof.
  intros H; apply occurs_trans with s; [exact H|].
  exists a, []; rewrite app_nil_r; reflexivity.
Qed.

Lemma occurs_app_r (p s b : str) : occurs p s -> occurs p (s ++ b).
Proof.
  intros H; apply occurs_trans with s; [exact H|].
  exists [], b; reflexivity.
Qed.

End StrFacts.

Section ReplaceFacts.

Lemma replace_scan_skipn (old new : str) (k : nat) (s : str) :
  replace_scan old new k s = replace_scan old new 0 (skipn k s).
Proof.
  revert k; induction s as [|c s IH]; intros [|k]; try reflexivity.
  simpl. apply IH.
Qed.

(** A matched occurrence is replaced and the scan resumes behind it. *)
Lemma replace_scan_match (old new rest : str) :
  old <> [] ->
  replace_scan old new 0 (old ++ rest) = new ++ replace_scan old new 0 rest.
Proof.
  destruct old as [|x p]; [congruence|]. intros _.
  pose proof (startswith_app (x :: p) rest) as Hs.
  change ((x :: p) ++ rest) with (x :: (p ++ rest)) in *.
  cbn [replace_scan]. rewrite Hs.
  f_equal. rewrite replace_scan_skipn.
  replace (length (x :: p) - 1) with (length p) by (simpl; lia).
  rewrite skipn_app, skipn_all, Nat.sub_diag. reflexivity.
Qed.

(** A position that does not start an occurrence is copied. *)
Lemma replace_scan_pass (old new : str) (c : char) (s : str) :
  startswith old (c :: s) = false ->
  replace_scan old new 0 (c :: s) = c :: replace_scan old new 0 s.
Proof. intros H. cbn [replace_scan]. rewrite H. reflexivity. Qed.

Lemma replace_scan_absent (old new s : str) :
  contains old s = false -> replace_scan old new 0 s = s.
Proof.
  induction s as [|c s IH]; [reflexivity|].
  cbn [contains]. intros H. apply orb_false_iff in H as [H1 H2].
  rewrite replace_scan_pass by exact H1. rewrite IH by exact H2. reflexivity.
Qed.

(** Without an occurrence of [old], [replace] returns its argument. *)
Lemma replace_absent (old new s : str) :
  contains old s = false -> replace old new s = s.
Proof.
  unfold replace. destruct old as [|x p].
  - intros H. destruct s; discriminate H.
  - apply replace_scan_absent.
Qed.

End ReplaceFacts.

Section StripFacts.

Lemma lstrip_suffix (s : str) : exists a, s = a ++ lstrip s.
Proof.
  induction s as [|c s [a IH]]; [exists []; reflexivity|].
  simpl. destruct (isspace c).
  - exists (c :: a). simpl. f_equal. exact IH.
  - exists []; reflexivity.
Qed.

Lemma rstrip_prefix (s : str) : exists b, s = rstrip s ++ b.
Proof.
  unfold rstrip. destruct (lstrip_suffix (rev s)) as [a E].
  exists (rev a). rewrite <- rev_app_distr, <- E, rev_involutive. reflexivity.
Qed.

(** What [strip] returns is a slice of its argument. *)
Lemma strip_slice (s : str) : occurs (strip s) s.
Proof.
  unfold strip. destruct (lstrip_suffix s) as [a Ea].
  destruct (rstrip_prefix (lstrip s)) as [b Eb].
  exists a, b. rewrite <- Eb. exact Ea.
Qed.

Lemma lstrip_leading (s : str) : leading_space (lstrip s) = false.
Proof.
  induction s as [|c s IH]; [reflexivity|].
  simpl. destruct (isspace c) eqn:E; [exact IH|]. simpl. exact E.
Qed.

Lemma rstrip_trailing (s : str) : trailing_space (rstrip s) = false.
Proof.
  unfold trailing_space, rstrip. rewrite rev_involutive. apply lstrip_leading.
Qed.

Lemma rstrip_leading (s : str) :
  leading_space s = false -> leading_space (rstrip s) = false.
Proof.
  intros H. destruct (rstrip_prefix s) as [b E].
  destruct (rstrip s) as [|c r]; [reflexivity|].
  rewrite E in H. exact H.
Qed.

Lemma lstrip_clean (s : str) : leading_space s = false -> lstrip s = s.
Proof. destruct s as [|c s]; [reflexivity|]. simpl. intros ->. reflexivity. Qed.

Lemma rstrip_clean (s : str) : trailing_space s = false -> rstrip s = s.
Proof.
  unfold trailing_space, rstrip. intros H.
  rewrite lstrip_clean by exact H. apply rev_involutive.
Qed.

Lemma strip_leading (s : str) : leading_space (strip s) = false.
Proof. apply rstrip_leading, lstrip_leading. Qed.

Lemma strip_trailing (s : str) : trailing_space (strip s) = false.
Proof. apply rstrip_trailing. Qed.

Lemma strip_clean (s : str) :
  leading_space s = false -> trailing_space s = false -> strip s = s.
Proof.
  intros Hl Ht. unfold strip. rewrite lstrip_clean by exact Hl.
  apply rstrip_clean, Ht.
Qed.

End StripFacts.

(** * Facts about the clean-up *)

Section CleanFacts.

Lemma startswith_cons (x c : char) (p s : str) :
  startswith (x :: p) (c :: s) = char_eqb x c && startswith p s.
Proof. reflexivity. Qed.

Lemma startswith_app_inv (p q s : str) :
  startswith (p ++ q) s = true -> startswith p s = true.
Proof.
  rewrite !startswith_spec. intros [b ->].
  exists (q ++ b). symmetry; apply app_assoc.
Qed.

Lemma replace_fence_step (c : char) (s : str) :
  replace_scan fence [] 0 (c :: s)
  = if startswith fence (c :: s)
    then replace_scan fence [] 2 s
    else c :: replace_scan fence [] 0 s.
Proof. reflexivity. Qed.

(** The scan never puts a backtick in front that its input did not have. *)
Lemma replace_fence_head1 (s : str) :
  startswith [backtick] (replace_scan fence [] 0 s) = true ->
  startswith [backtick] s = true.
Proof.
  destruct s as [|c s]; [intros H; exact H|].
  rewrite replace_fence_step.
  destruct (startswith fence (c :: s)) eqn:E.
  - intros _. apply (startswith_app_inv [backtick] [backtick; backtick]), E.
  - intros H; exact H.
Qed.

Lemma replace_fence_head2 (s : str) :
  startswith [backtick; backtick] (replace_scan fence [] 0 s) = true ->
  startswith [backtick; backtick] s = true.
Proof.
  destruct s as [|c s]; [intros H; exact H|].
  rewrite replace_fence_step.
  destruct (startswith fence (c :: s)) eqn:E.
  - intros _. apply (startswith_app_inv [backtick; backtick] [backtick]), E.
  - rewrite !startswith_cons. intros H. apply andb_true_iff in H as [Hc Hs].
    rewrite Hc. apply replace_fence_head1. exact Hs.
Qed.

(** After the scan for the fence no fence is left. *)
Lemma replace_scan_fence_free (k : nat) (s : str) :
  contains fence (replace_scan fence [] k s) = false.
Proof.
  revert k; induction s as [|c s IH]; intros k; [reflexivity|].
  destruct k as [|k]; [|apply IH].
  rewrite replace_fence_step.
  destruct (startswith fence (c :: s)) eqn:E; [apply IH|].
  cbn [contains]. rewrite IH, orb_false_r.
  destruct (startswith fence (c :: replace_scan fence [] 0 s)) eqn:F;
    [|reflexivity].
  change fence with (backtick :: [backtick; backtick]) in E, F.
  rewrite startswith_cons in E, F. apply andb_true_iff in F as [Fc Fs].
  apply replace_fence_head2 in Fs. rewrite Fc, Fs in E. discriminate E.
Qed.

Lemma replace_fence_free (s : str) : contains fence (replace fence [] s) = false.
Proof. apply replace_scan_fence_free. Qed.

Lemma fence_html_occurs (s : str) : occurs fence_html s -> occurs fence s.
Proof.
  apply occurs_trans. exists [], (lit "html"). reflexivity.
Qed.

Lemma fence_free_html_free (s : str) :
  contains fence s = false -> contains fence_html s = false.
Proof.
  rewrite !contains_false. intros H O. apply H, fence_html_occurs, O.
Qed.

Lemma cleaned_tips_fence_free (text : str) : ~ occurs fence (cleaned_tips text).
Proof.
  intros O.
  pose proof (strip_slice (replace fence [] (replace fence_html [] text))) as S.
  pose proof (occurs_trans _ _ _ O S) as O'.
  apply contains_spec in O'. rewrite replace_fence_free in O'. discriminate O'.
Qed.

(** On a text without fence and without white space at its ends the
    clean-up changes nothing. *)
Lemma cleaned_tips_fixed (text : str) :
  ~ occurs fence text ->
  leading_space text = false -> trailing_space text = false ->
  cleaned_tips text = text.
Proof.
  intros Hf Hl Ht. apply contains_false in Hf. unfold cleaned_tips.
  rewrite (replace_absent _ _ _ (fence_free_html_free _ Hf)).
  rewrite (replace_absent _ _ _ Hf).
  apply strip_clean; assumption.
Qed.

End CleanFacts.

(** * The Tip Generator *)

Section TipFacts.

Variable py_str : json -> str.

Lemma dict_get_absent (key : str) (fields : list (str * json)) :
  ~ In key (map fst fields) -> dict_get key fields = JNull.
Proof.
  induction fields as [|[k v] rest IH]; [reflexivity|].
  simpl. intros H. destruct (eqb k key) eqn:E.
  - apply eqb_eq in E. exfalso; apply H; left; exact E.
  - apply IH. intros I; apply H; right; exact I.
Qed.

(** With the client in place and a truthy [cropName], the handler sends
    one prompt and what follows depends on the call alone. *)
Lemma get_farming_tips_call (m : GenerativeModel) (fields : list (str * json)) :
  truthy (dict_get (lit "cropName") fields) = true ->
  get_farming_tips py_str (Some m) (GetJsonReturns (JObj fields))
  = let prompt := prompt (format_field py_str (dict_get (lit "cropName") fields)) in
    match generate_content m prompt with
    | CallRaises e => except_Exception [prompt] e
    | CallReturns (TextRaises e) => except_Exception [prompt] e
    | CallReturns (TextIs text) =>
        Run (Responds 200 (JObj [(lit "tips", JStr (cleaned_tips text))])) [prompt] []
    end.
Proof. intros H. cbn [get_farming_tips py_get]. rewrite H. reflexivity. Qed.

Lemma get_farming_tips_falsy (m : GenerativeModel) (fields : list (str * json)) :
  truthy (dict_get (lit "cropName") fields) = false ->
  get_farming_tips py_str (Some m) (GetJsonReturns (JObj fields))
  = Run (Responds 400 (error_body "Crop name is required")) [] [].
Proof. intros H. cbn [get_farming_tips py_get]. rewrite H. reflexivity. Qed.

End TipFacts.

(** C1, as the code has it.  The readiness check comes first: a request
    whose body is a JSON object without the field [cropName] is answered
    400 [Crop name is required] when the client is initialised, and 500
    [Gemini API not configured] when it is not. *)
Theorem missing_crop_name_response
    (py_str : json -> str) (model : option GenerativeModel)
    (fields : list (str * json)) :
  ~ In (lit "cropName") (map fst fields) ->
  get_farming_tips py_str model (GetJsonReturns (JObj fields))
  = match model with
    | Some _ => Run (Responds 400 (error_body "Crop name is required")) [] []
    | None => Run (Responds 500 (error_body "Gemini API not configured")) [] []
    end.
Proof.
  intros H. destruct model as [m|]; [|reflexivity].
  apply get_farming_tips_falsy. rewrite (dict_get_absent _ _ H). reflexivity.
Qed.

Lemma missing_crop_name_response_witness :
  get_farming_tips (fun _ => []) (Some (answering (lit "<ul></ul>")))
                   (GetJsonReturns (JObj [(lit "region", JStr (lit "Punjab"))]))
  = Run (Responds 400 (error_body "Crop name is required")) [] [].
Proof.
  apply (missing_crop_name_response (fun _ => []) (Some (answering (lit "<ul></ul>")))
           [(lit "region", JStr (lit "Punjab"))]).
  vm_compute. intros [H|[]]. discriminate H.
Defined.

(** C1, as the claim has it, fails: with the client not initialised the
    body [{}] is answered 500 [Gemini API not configured], not 400. *)
Lemma missing_crop_name_unconfigured :
  result (get_farming_tips (fun _ => []) None (GetJsonReturns (JObj [])))
  = Responds 500 (error_body "Gemini API not configured") /\
  result (get_farming_tips (fun _ => []) None (GetJsonReturns (JObj [])))
  <> Responds 400 (error_body "Crop name is required").
Proof. split; [reflexivity|discriminate]. Qed.

(** C2.  When the client failed to initialise, every request, so every
    request with a valid [cropName], is answered 500
    [Gemini API not configured], and no prompt is sent to the external
    service. *)
Theorem unconfigured_response (py_str : json -> str) (request : get_json_result) :
  result (get_farming_tips py_str None request)
  = Responds 500 (error_body "Gemini API not configured") /\
  calls (get_farming_tips py_str None request) = [].
Proof. split; reflexivity. Qed.




(** C4.  The clean-up is idempotent: cleaning a cleaned text changes
    nothing. *)
Theorem cleaned_tips_idempotent (text : str) :
  cleaned_tips (cleaned_tips text) = cleaned_tips text.
Proof.
  apply cleaned_tips_fixed.
  - apply cleaned_tips_fence_free.
  - apply strip_leading.
  - apply strip_trailing.
Qed.

(** C5.  Whatever text the external service answers, the [tips] of the 200
    response hold no fence, tagged or not, and no white space at either
    end. *)
Theorem tips_are_clean
    (py_str : json -> str) (m : GenerativeModel)
    (fields : list (str * json)) (text : str) :
  truthy (dict_get (lit "cropName") fields) = true ->
  generate_content m (prompt (format_field py_str (dict_get (lit "cropName") fields)))
  = CallReturns (TextIs text) ->
  exists tips,
    result (get_farming_tips py_str (Some m) (GetJsonReturns (JObj fields)))
    = Responds 200 (JObj [(lit "tips", JStr tips)]) /\
    ~ occurs fence tips /\ ~ occurs fence_html tips /\
    leading_space tips = false /\ trailing_space tips = false.
Proof.
  intros Hc Hg. exists (cleaned_tips text).
  rewrite get_farming_tips_call by exact Hc. cbv zeta. rewrite Hg.
  split; [reflexivity|].
  split; [apply cleaned_tips_fence_free|].
  split; [intros O; apply (cleaned_tips_fence_free text), fence_html_occurs, O|].
  split; [apply strip_leading | apply strip_trailing].
Qed.

Lemma tips_are_clean_witness :
  exists tips,
    result (get_farming_tips (fun _ => [])
              (Some (answering (lit "```html" ++ nl ++ lit "<ul></ul>" ++ nl ++ lit "```")))
              (tip_request (JStr (lit "Tomatoes"))))
    = Responds 200 (JObj [(lit "tips", JStr tips)]) /\
    ~ occurs fence tips /\ ~ occurs fence_html tips /\
    leading_space tips = false /\ trailing_space tips = false.
Proof.
  apply (tips_are_clean (fun _ => [])
           (answering (lit "```html" ++ nl ++ lit "<ul></ul>" ++ nl ++ lit "```"))
           [(lit "cropName", JStr (lit "Tomatoes"))]
           (lit "```html" ++ nl ++ lit "<ul></ul>" ++ nl ++ lit "```")).
  - reflexivity.
  - reflexivity.
Defined.

(** C7.  A text without fence and without white space at its ends comes
    back unchanged as the [tips] of the 200 response. *)
Theorem clean_text_verbatim
    (py_str : json -> str) (m : GenerativeModel)
    (fields : list (str * json)) (text : str) :
  truthy (dict_get (lit "cropName") fields) = true ->
  generate_content m (prompt (format_field py_str (dict_get (lit "cropName") fields)))
  = CallReturns (TextIs text) ->
  ~ occurs fence text ->
  leading_space text = false -> trailing_space text = false ->
  result (get_farming_tips py_str (Some m) (GetJsonReturns (JObj fields)))
  = Responds 200 (JObj [(lit "tips", JStr text)]).
Proof.
  intros Hc Hg Hf Hl Ht.
  rewrite get_farming_tips_call by exact Hc. cbv zeta. rewrite Hg.
  cbn [result]. rewrite cleaned_tips_fixed by assumption. reflexivity.
Qed.

Lemma clean_text_verbatim_witness :
  result (get_farming_tips (fun _ => [])
            (Some (answering (lit "no list, just `prose`")))
            (tip_request (JStr (lit "Tomatoes"))))
  = Responds 200 (JObj [(lit "tips", JStr (lit "no list, just `prose`"))]).
Proof.
  apply (clean_text_verbatim (fun _ => [])
           (answering (lit "no list, just `prose`"))
           [(lit "cropName", JStr (lit "Tomatoes"))]
           (lit "no list, just `prose`")).
  - reflexivity.
  - reflexivity.
  - apply contains_false. vm_compute. reflexivity.
  - reflexivity.
  - reflexivity.
Defined.

(** C9.  The check on [cropName] is a truth test: a falsy value under the
    field (the empty string, [null], [false], [0] among them) takes the
    handler through the branch of an absent field, which is 400
    [Crop name is required] once the client is in place. *)
Theorem falsy_crop_name_rejected
    (py_str : json -> str) (fields : list (str * json)) :
  truthy (dict_get (lit "cropName") fields) = false ->
  (forall m : GenerativeModel,
     get_farming_tips py_str (Some m) (GetJsonReturns (JObj fields))
     = Run (Responds 400 (error_body "Crop name is required")) [] []) /\
  (forall model : option GenerativeModel,
     get_farming_tips py_str model (GetJsonReturns (JObj fields))
     = get_farming_tips py_str model (GetJsonReturns (JObj []))) /\
  Forall (fun v => truthy v = false) [JStr []; JNull; JBool false; JInt 0].
Proof.
  intros H. split; [|split].
  - intros m. apply get_farming_tips_falsy, H.
  - intros [m|]; [|reflexivity].
    rewrite get_farming_tips_falsy by exact H. reflexivity.
  - repeat constructor.
Qed.

Lemma falsy_crop_name_rejected_witness :
  get_farming_tips (fun _ => []) (Some (answering (lit "<ul></ul>")))
                   (tip_request (JStr []))
  = Run (Responds 400 (error_body "Crop name is required")) [] [].
Proof.
  apply (falsy_crop_name_rejected (fun _ => []) [(lit "cropName", JStr [])]).
  reflexivity.
Defined.

(** * The prompt *)

(** Finds the piece of a concatenation that holds the wanted text. *)
Ltac find_piece :=
  first
    [ apply occurs_app_r; apply occurs_refl
    | apply occurs_app_r; apply contains_spec; vm_compute; reflexivity
    | apply contains_spec; vm_compute; reflexivity
    | apply occurs_app_l; find_piece ].


Lemma prompt_holds_persona (crop_name : str) : occurs persona (prompt crop_name).
Proof. unfold prompt. find_piece. Qed.

Lemma prompt_holds_rules (crop_name : str) :
  Forall (fun rule => occurs rule (prompt crop_name)) format_rules.
Proof. unfold prompt. repeat constructor; find_piece. Qed.







(** * The Crop Simulator *)

Section CropFacts.

Context {rng : Type}.
Variable randbelow : nat -> rng -> nat * rng.

(** What [_randbelow(n)] promises: a number below [n]. *)
Hypothesis randbelow_lt : forall n g, 0 < n -> fst (randbelow n g) < n.

Lemma choice_possible_crops (g : rng) :
  exists crop, fst (choice randbelow possible_crops g) = inr crop /\
               In crop possible_crops.
Proof.
  unfold choice, possible_crops. cbn [length].
  pose proof (randbelow_lt 5 g ltac:(lia)) as Hi.
  destruct (randbelow 5 g) as [i g1]. cbn [fst] in Hi.
  do 5 (destruct i as [|i];
        [eexists; split; [reflexivity|cbn [In]; tauto]|]).
  lia.
Qed.

Lemma randint_85_98 (g : rng) :
  exists n, fst (randint randbelow 85 98 g) = inr n /\ (85 <= n <= 98)%Z.
Proof.
  unfold randint. change (98 + 1 - 85)%Z with 14%Z. cbn [Z.ltb Z.compare].
  change (Z.to_nat 14) with 14.
  pose proof (randbelow_lt 14 g ltac:(lia)) as Hk.
  destruct (randbelow 14 g) as [k g1]. cbn [fst] in *.
  eexists; split; [reflexivity|lia].
Qed.

(** C6.  Whatever the request and the state of the generator, the
    simulator answers 200 with a crop of the fixed five and an integer
    confidence from 85 to 98. *)
Theorem analyze_crop_range (request : get_json_result) (g : rng) :
  exists (crop : str) (confidence : Z),
    fst (analyze_crop randbelow request g)
    = Responds 200 (JObj [(lit "crop", JStr crop);
                          (lit "confidence", JInt confidence)]) /\
    In crop [lit "Wheat"; lit "Rice"; lit "Sugarcane"; lit "Cotton"; lit "Mustard"] /\
    (85 <= confidence <= 98)%Z.
Proof.
  unfold analyze_crop.
  destruct (choice_possible_crops g) as (crop & Hc & Hin).
  destruct (choice randbelow possible_crops g) as [picked g1].
  cbn [fst] in Hc. subst picked.
  destruct (randint_85_98 g1) as (n & Hn & Hr).
  destruct (randint randbelow 85 98 g1) as [drawn g2].
  cbn [fst] in Hn. subst drawn.
  exists crop, n. split; [reflexivity|]. split; [exact Hin | exact Hr].
Qed.

End CropFacts.

Lemma analyze_crop_range_witness :
  exists (crop : str) (confidence : Z),
    fst (analyze_crop counter_randbelow (GetJsonReturns JNull) 7)
    = Responds 200 (JObj [(lit "crop", JStr crop);
                          (lit "confidence", JInt confidence)]) /\
    In crop [lit "Wheat"; lit "Rice"; lit "Sugarcane"; lit "Cotton"; lit "Mustard"] /\
    (85 <= confidence <= 98)%Z.
Proof.
  apply (analyze_crop_range counter_randbelow).
  intros n g Hn. unfold counter_randbelow. simpl.
  apply Nat.mod_upper_bound. lia.
Defined.

(** * Fences anywhere in the text *)

Section FenceFacts.

(** Text free of the first character of [old] is copied by the scan. *)
Lemma replace_scan_free (x : char) (p new u t : str) :
  ~ In x u ->
  replace_scan (x :: p) new 0 (u ++ t) = u ++ replace_scan (x :: p) new 0 t.
Proof.
  induction u as [|c u IH]; intros H; [reflexivity|].
  change ((c :: u) ++ t) with (c :: (u ++ t)).
  rewrite replace_scan_pass.
  - rewrite IH; [reflexivity|]. intros I; apply H; right; exact I.
  - rewrite startswith_cons.
    destruct (char_eqb x c) eqn:E; [|reflexivity].
    apply char_eqb_eq in E. exfalso; apply H; left; symmetry; exact E.
Qed.

Lemma fence_scan_free (u t : str) :
  ~ In backtick u ->
  replace_scan fence [] 0 (u ++ t) = u ++ replace_scan fence [] 0 t.
Proof. apply (replace_scan_free backtick). Qed.

Lemma fence_html_scan_free (u t : str) :
  ~ In backtick u ->
  replace_scan fence_html [] 0 (u ++ t) = u ++ replace_scan fence_html [] 0 t.
Proof. apply (replace_scan_free backtick). Qed.

Lemma startswith_app_same (p q w : str) :
  startswith (p ++ q) (p ++ w) = startswith q w.
Proof.
  induction p as [|x p IH]; [reflexivity|].
  change (startswith (x :: (p ++ q)) (x :: (p ++ w)) = startswith q w).
  rewrite startswith_cons, IH. unfold char_eqb. rewrite N.eqb_refl. reflexivity.
Qed.

(** A match that runs past the end of [u] continues into what follows. *)
Lemma startswith_app_boundary (p u t : str) :
  startswith p (u ++ t) = true -> startswith p u = false ->
  exists h t', t = h :: t' /\ In h p.
Proof.
  revert u; induction p as [|x p IH]; intros u Ht Hu.
  - discriminate Hu.
  - destruct u as [|c u].
    + destruct t as [|h t']; [discriminate Ht|].
      change ([] ++ h :: t') with (h :: t') in Ht. rewrite startswith_cons in Ht.
      apply andb_true_iff in Ht as [Hc _]. apply char_eqb_eq in Hc.
      exists h, t'. split; [reflexivity | left; exact Hc].
    + change ((c :: u) ++ t) with (c :: (u ++ t)) in Ht.
      rewrite startswith_cons in Ht, Hu.
      apply andb_true_iff in Ht as [Hc Ht]. rewrite Hc in Hu.
      destruct (IH u Ht Hu) as (h & t' & E & I).
      exists h, t'. split; [exact E | right; exact I].
Qed.

(** Where a text stops short of a fence: at its end, before a character
    that is no backtick, or before another fence. *)
Lemma fence_kept_by_html_scan (w : str) :
  w = [] \/ (exists c w', w = c :: w' /\ c <> backtick) \/
    startswith fence w = true ->
  startswith (lit "html") w = false ->
  replace_scan fence_html [] 0 (fence ++ w)
  = fence ++ replace_scan fence_html [] 0 w.
Proof.
  intros Hw Hh.
  assert (H2 : startswith fence_html (backtick :: backtick :: w) = false).
  { destruct Hw as [-> | [(c & w' & -> & Hc) | Hf]].
    - reflexivity.
    - apply N.eqb_neq in Hc. rewrite N.eqb_sym in Hc.
      change (char_eqb backtick c && startswith (lit "html") w' = false).
      unfold char_eqb. rewrite Hc. reflexivity.
    - apply startswith_spec in Hf as [b ->]. reflexivity. }
  assert (H1 : startswith fence_html (backtick :: w) = false).
  { destruct Hw as [-> | [(c & w' & -> & Hc) | Hf]].
    - reflexivity.
    - apply N.eqb_neq in Hc. rewrite N.eqb_sym in Hc.
      change (char_eqb backtick c
              && startswith (backtick :: lit "html") w' = false).
      unfold char_eqb. rewrite Hc. reflexivity.
    - apply startswith_spec in Hf as [b ->]. reflexivity. }
  assert (H3 : startswith fence_html (fence ++ w) = false).
  { unfold fence_html. rewrite startswith_app_same. exact Hh. }
  change (fence ++ w) with (backtick :: backtick :: backtick :: w) in *.
  rewrite !replace_scan_pass by assumption. reflexivity.
Qed.

Lemma fenced_tail_edge (rest : list (marker * str)) :
  concat (map (fun mu => marker_text (fst mu) ++ snd mu) rest) = [] \/
  startswith fence
    (concat (map (fun mu => marker_text (fst mu) ++ snd mu) rest)) = true.
Proof.
  destruct rest as [|[[|] u] rest']; [left; reflexivity| |]; right; reflexivity.
Qed.

(** The first pass removes the tagged fences and keeps the plain ones. *)
Lemma html_pass_on_tail (rest : list (marker * str)) :
  Forall marked_off rest ->
  replace_scan fence_html [] 0
    (concat (map (fun mu => marker_text (fst mu) ++ snd mu) rest))
  = concat (map (fun mu => match fst mu with
                           | Fence => fence
                           | FenceHtml => []
                           end ++ snd mu) rest).
Proof.
  induction 1 as [|[m u] rest' [Hu Hm] Hrest IH]; [reflexivity|].
  cbn [map concat fst snd] in *. rewrite <- app_assoc.
  set (tail := concat (map (fun mu => marker_text (fst mu) ++ snd mu) rest')) in *.
  pose proof (fence_html_scan_free u tail Hu) as Hfree.
  destruct m; cbn [marker_text].
  - rewrite fence_kept_by_html_scan.
    + rewrite Hfree, IH, <- app_assoc. reflexivity.
    + destruct u as [|c u'].
      * destruct (fenced_tail_edge rest') as [E|E]; fold tail in E;
          [left; exact E | right; right; exact E].
      * right; left. exists c, (u' ++ tail). split; [reflexivity|].
        intros ->. apply Hu. left; reflexivity.
    + destruct (startswith (lit "html") (u ++ tail)) eqn:S; [|reflexivity].
      destruct (startswith_app_boundary _ _ _ S (Hm eq_refl))
        as (h & t' & Et & Ih).
      destruct (fenced_tail_edge rest') as [E|E]; fold tail in E.
      * rewrite E in Et. discriminate Et.
      * rewrite Et in E. change fence with (backtick :: [backtick; backtick]) in E.
        rewrite startswith_cons in E. apply andb_true_iff in E as [E _].
        apply char_eqb_eq in E. subst h.
        exfalso. revert Ih. vm_compute. intuition discriminate.
  - rewrite replace_scan_match by discriminate.
    rewrite Hfree, IH. reflexivity.
Qed.

(** The second pass removes the plain fences. *)
Lemma fence_pass_on_tail (rest : list (marker * str)) :
  Forall marked_off rest ->
  replace_scan fence [] 0
    (concat (map (fun mu => match fst mu with
                            | Fence => fence
                            | FenceHtml => []
                            end ++ snd mu) rest))
  = concat (map (fun mu => snd mu) rest).
Proof.
  induction 1 as [|[m u] rest' [Hu Hm] Hrest IH]; [reflexivity|].
  cbn [map concat fst snd] in *.
  destruct m.
  - rewrite <- app_assoc, replace_scan_match by discriminate.
    cbn [app]. rewrite fence_scan_free, IH by exact Hu. reflexivity.
  - cbn [app]. rewrite fence_scan_free, IH by exact Hu. reflexivity.
Qed.

Lemma cleaned_tips_fenced (first : str) (rest : list (marker * str)) :
  ~ In backtick first -> Forall marked_off rest ->
  cleaned_tips (fenced first rest) = strip (unfenced first rest).
Proof.
  intros Hf Hr. unfold cleaned_tips, fenced, unfenced. f_equal.
  change (replace fence_html [] ?s) with (replace_scan fence_html [] 0 s).
  rewrite fence_html_scan_free, html_pass_on_tail by assumption.
  change (replace fence [] ?s) with (replace_scan fence [] 0 s).
  rewrite fence_scan_free, fence_pass_on_tail by assumption.
  reflexivity.
Qed.

End FenceFacts.

(** C10.  The clean-up removes the fences wherever they stand: no fence,
    tagged or not, is left in any cleaned text, and a text whose backticks
    are fences, at its ends or between its parts, comes out as its parts
    joined and stripped. *)
Theorem fences_removed_everywhere :
  (forall text : str,
     ~ occurs fence (cleaned_tips text) /\ ~ occurs fence_html (cleaned_tips text)) /\
  (forall (first : str) (rest : list (marker * str)),
     ~ In backtick first -> Forall marked_off rest ->
     cleaned_tips (fenced first rest) = strip (unfenced first rest)).
Proof.
  split.
  - intros text. split; [apply cleaned_tips_fence_free|].
    intros O. apply (cleaned_tips_fence_free text), fence_html_occurs, O.
  - apply cleaned_tips_fenced.
Qed.

Lemma fences_removed_everywhere_witness :
  cleaned_tips (lit "<li>Run ```terraform plan``` before ```html</li>")
  = lit "<li>Run terraform plan before </li>".
Proof.
  apply (proj2 fences_removed_everywhere (lit "<li>Run ")
           [(Fence, lit "terraform plan"); (Fence, lit " before ");
            (FenceHtml, lit "</li>")]).
  - vm_compute. intuition discriminate.
  - repeat constructor; vm_compute; intuition discriminate.
Defined.

(** * The configuration at start-up *)

Section StartupFacts.

Variable lib : genai.

(** Without a key, or with an empty one, the block raises its own
    [KeyError] before it touches the library: [model] is [None] and the two
    lines of the [except KeyError] clause are printed, the first with the
    quotes [str] puts around the message of a [KeyError]. *)
Theorem startup_without_key (GEMINI_API_KEY : option str) :
  GEMINI_API_KEY = None \/ GEMINI_API_KEY = Some [] ->
  gemini_api_configuration GEMINI_API_KEY lib
  = Startup (inr None) []
      [ lit "ERROR: 'GEMINI_API_KEY not found in environment variables.'";
        lit "Please create a .env file and add GEMINI_API_KEY='your_key_here'" ].
Proof. intros [-> | ->]; reflexivity. Qed.

Lemma except_clauses_loaded (made : list library_call) (r : raised) :
  loaded (except_clauses made r)
  = match r with
    | KeyError _ => inr None
    | OtherError e => if is_Exception e then inr None else inl e
    end.
Proof. destruct r as [text|e]; [reflexivity|]. simpl. destruct (is_Exception e); reflexivity. Qed.

Lemma except_clauses_calls (made : list library_call) (r : raised) :
  library_calls (except_clauses made r) = made.
Proof. destruct r as [text|e]; [reflexivity|]. simpl. destruct (is_Exception e); reflexivity. Qed.

(** The global [model] holds a client exactly when the key is set and not
    empty, [genai.configure] returns and the constructor returns; the
    client is the one the constructor built. *)
Theorem startup_gives_client_iff (GEMINI_API_KEY : option str) (m : GenerativeModel) :
  loaded (gemini_api_configuration GEMINI_API_KEY lib) = inr (Some m) <->
  exists api_key,
    GEMINI_API_KEY = Some api_key /\ api_key <> [] /\
    configure lib api_key = None /\
    new_GenerativeModel lib (lit "gemini-pro") = inr m.
Proof.
  split.
  - destruct GEMINI_API_KEY as [[|c k]|]; try discriminate.
    unfold gemini_api_configuration.
    destruct (configure lib (c :: k)) as [r|] eqn:Ec.
    + rewrite except_clauses_loaded. destruct r as [t|e];
        [discriminate | destruct (is_Exception e); discriminate].
    + cbv zeta. destruct (new_GenerativeModel lib (lit "gemini-pro")) as [r|m'] eqn:En.
      * rewrite except_clauses_loaded. destruct r as [t|e];
          [discriminate | destruct (is_Exception e); discriminate].
      * cbn [loaded]. intros E. injection E as ->.
        exists (c :: k). repeat split; [discriminate | exact Ec].
  - intros (k & -> & Hk & Hc & Hn). destruct k as [|c k]; [congruence|].
    unfold gemini_api_configuration. rewrite Hc. cbv zeta. rewrite Hn. reflexivity.
Qed.

(** The import is aborted only by an exception of the library that is no
    [Exception]; every [Exception], a [KeyError] included, is caught. *)
Theorem startup_aborts_only_outside_Exception
    (GEMINI_API_KEY : option str) (e : exn) :
  loaded (gemini_api_configuration GEMINI_API_KEY lib) = inl e ->
  is_Exception e = false /\
  exists api_key,
    GEMINI_API_KEY = Some api_key /\ api_key <> [] /\
    (configure lib api_key = Some (OtherError e) \/
     configure lib api_key = None /\
     new_GenerativeModel lib (lit "gemini-pro") = inl (OtherError e)).
Proof.
  destruct GEMINI_API_KEY as [[|c k]|]; try discriminate.
  unfold gemini_api_configuration.
  destruct (configure lib (c :: k)) as [r|] eqn:Ec.
  - rewrite except_clauses_loaded. destruct r as [t|e']; [discriminate|].
    destruct (is_Exception e') eqn:Ee; [discriminate|].
    intros E; injection E as ->. split; [exact Ee|].
    exists (c :: k). repeat split; [discriminate | left; exact Ec].
  - cbv zeta. destruct (new_GenerativeModel lib (lit "gemini-pro")) as [r|m'] eqn:En;
      [|discriminate].
    rewrite except_clauses_loaded. destruct r as [t|e']; [discriminate|].
    destruct (is_Exception e') eqn:Ee; [discriminate|].
    intros E; injection E as ->. split; [exact Ee|].
    exists (c :: k). repeat split; [discriminate | right; split; [exact Ec | first [exact En | reflexivity]]].
Qed.

(** The constructor is called only after [genai.configure] has returned,
    and only for the model ['gemini-pro']; [genai.configure] only ever
    gets the key of the environment. *)
Theorem startup_library_calls (GEMINI_API_KEY : option str) :
  (forall name,
     In (NewGenerativeModel name)
        (library_calls (gemini_api_configuration GEMINI_API_KEY lib)) ->
     name = lit "gemini-pro" /\
     exists api_key, GEMINI_API_KEY = Some api_key /\ configure lib api_key = None) /\
  (forall api_key,
     In (Configure api_key)
        (library_calls (gemini_api_configuration GEMINI_API_KEY lib)) ->
     GEMINI_API_KEY = Some api_key /\ api_key <> []).
Proof.
  destruct GEMINI_API_KEY as [[|c k]|];
    try (split; intros x H; cbn in H; tauto).
  unfold gemini_api_configuration.
  destruct (configure lib (c :: k)) as [r|] eqn:Ec.
  - rewrite except_clauses_calls. split; intros x [H|[]]; [discriminate H|].
    injection H as <-. split; [reflexivity | discriminate].
  - cbv zeta.
    assert (Hcalls : library_calls
              match new_GenerativeModel lib (lit "gemini-pro") with
              | inl r => except_clauses
                           [Configure (c :: k); NewGenerativeModel (lit "gemini-pro")] r
              | inr model =>
                  Startup (inr (Some model))
                    [Configure (c :: k); NewGenerativeModel (lit "gemini-pro")]
                    [lit "Gemini API configured successfully."]
              end
            = [Configure (c :: k); NewGenerativeModel (lit "gemini-pro")]).
    { destruct (new_GenerativeModel lib (lit "gemini-pro"));
        [apply except_clauses_calls | reflexivity]. }
    rewrite Hcalls. split; intros x [H|[H|[]]]; try discriminate H.
    + injection H as <-. split; [reflexivity|]. exists (c :: k). split; [reflexivity | exact Ec].
    + injection H as <-. split; [reflexivity | discriminate].
Qed.

End StartupFacts.

Lemma startup_without_key_witness :
  gemini_api_configuration (Some []) (working_genai (answering []))
  = Startup (inr None) []
      [ lit "ERROR: 'GEMINI_API_KEY not found in environment variables.'";
        lit "Please create a .env file and add GEMINI_API_KEY='your_key_here'" ].
Proof.
  apply (startup_without_key (working_genai (answering [])) (Some [])).
  right. reflexivity.
Defined.

Lemma startup_aborts_only_outside_Exception_witness :
  is_Exception (Exn false (lit "interrupted")) = false.
Proof.
  apply (startup_aborts_only_outside_Exception
           {| configure := fun _ => Some (OtherError (Exn false (lit "interrupted")));
              new_GenerativeModel := fun _ => inr (answering []) |}
           (Some (lit "k3y")) (Exn false (lit "interrupted"))).
  reflexivity.
Defined.

(** A process that could not set up its client answers every request to
    [/get-farming-tips] with 500 [Gemini API not configured] and sends
    nothing: that is so when the key is missing or empty and when the
    library raises a [KeyError] or another [Exception] from
    [genai.configure] or from the constructor. *)
Theorem tips_disabled_after_failed_startup
    (py_str : json -> str) (GEMINI_API_KEY : option str) (lib : genai)
    (request : get_json_result) :
  GEMINI_API_KEY = None \/ GEMINI_API_KEY = Some [] \/
  (exists api_key r,
     GEMINI_API_KEY = Some api_key /\
     match r with KeyError _ => True | OtherError e => is_Exception e = true end /\
     (configure lib api_key = Some r \/
      configure lib api_key = None /\
      new_GenerativeModel lib (lit "gemini-pro") = inl r)) ->
  get_farming_tips_in_process py_str GEMINI_API_KEY lib request
  = inr (Run (Responds 500 (error_body "Gemini API not configured")) [] []).
Proof.
  unfold get_farming_tips_in_process.
  intros [-> | [-> | (k & r & -> & Hr & Hl)]]; try reflexivity.
  assert (Hload : loaded (gemini_api_configuration (Some k) lib) = inr None).
  { destruct k as [|c k]; [reflexivity|]. unfold gemini_api_configuration.
    destruct Hl as [-> | [-> ->]]; cbv zeta; rewrite except_clauses_loaded;
      destruct r as [t|e]; try reflexivity; rewrite Hr; reflexivity. }
  rewrite Hload. reflexivity.
Qed.

Lemma tips_disabled_after_failed_startup_witness :
  get_farming_tips_in_process (fun _ => []) (Some (lit "k3y"))
    {| configure := fun _ => None;
       new_GenerativeModel := fun _ => inl (OtherError (Exn true (lit "no such model"))) |}
    (tip_request (JStr (lit "Rice")))
  = inr (Run (Responds 500 (error_body "Gemini API not configured")) [] []).
Proof.
  apply tips_disabled_after_failed_startup.
  right; right. exists (lit "k3y"), (OtherError (Exn true (lit "no such model"))).
  split; [reflexivity|]. split; [reflexivity|]. right. split; reflexivity.
Defined.

(** * The ways through the Tip Generator *)

Section TipRuns.

Variable py_str : json -> str.

(** Every run of the handler goes one of seven ways. *)
Lemma get_farming_tips_cases (model : option GenerativeModel) (request : get_json_result) :
  (model = None /\
   get_farming_tips py_str model request
   = Run (Responds 500 (error_body "Gemini API not configured")) [] []) \/
  (exists m e,
     model = Some m /\ request = GetJsonRaises e /\
     get_farming_tips py_str model request = Run (Propagates e) [] []) \/
  (exists m data,
     model = Some m /\ request = GetJsonReturns data /\
     (forall fields, data <> JObj fields) /\
     get_farming_tips py_str model request
     = Run (Propagates (AttributeError data "get")) [] []) \/
  (exists m fields,
     model = Some m /\ request = GetJsonReturns (JObj fields) /\
     truthy (dict_get (lit "cropName") fields) = false /\
     get_farming_tips py_str model request
     = Run (Responds 400 (error_body "Crop name is required")) [] []) \/
  (exists m fields text,
     model = Some m /\ request = GetJsonReturns (JObj fields) /\
     truthy (dict_get (lit "cropName") fields) = true /\
     generate_content m (prompt_for py_str fields) = CallReturns (TextIs text) /\
     get_farming_tips py_str model request
     = Run (Responds 200 (JObj [(lit "tips", JStr (cleaned_tips text))]))
           [prompt_for py_str fields] []) \/
  (exists m fields e,
     model = Some m /\ request = GetJsonReturns (JObj fields) /\
     truthy (dict_get (lit "cropName") fields) = true /\
     (generate_content m (prompt_for py_str fields) = CallRaises e \/
      generate_content m (prompt_for py_str fields) = CallReturns (TextRaises e)) /\
     is_Exception e = true /\
     get_farming_tips py_str model request
     = Run (Responds 500 (error_body "Failed to get tips from Gemini API"))
           [prompt_for py_str fields] [lit "Error calling Gemini API: " ++ message e]) \/
  (exists m fields e,
     model = Some m /\ request = GetJsonReturns (JObj fields) /\
     truthy (dict_get (lit "cropName") fields) = true /\
     (generate_content m (prompt_for py_str fields) = CallRaises e \/
      generate_content m (prompt_for py_str fields) = CallReturns (TextRaises e)) /\
     is_Exception e = false /\
     get_farming_tips py_str model request = Run (Propagates e) [prompt_for py_str fields] []).
Proof.
  unfold prompt_for.
  destruct model as [m|]; [|left; split; reflexivity].
  destruct request as [data|e]; [|right; left; exists m, e; repeat split].
  destruct data as [ | b | n | f | s | items | fields ];
    try (right; right; left; eexists m, _;
         repeat split; discriminate).
  destruct (truthy (dict_get (lit "cropName") fields)) eqn:Ht.
  - rewrite get_farming_tips_call by exact Ht. cbv zeta.
    destruct (generate_content m (prompt (format_field py_str (dict_get (lit "cropName") fields)))) as [[text|e]|e] eqn:Hg.
    + do 4 right; left. exists m, fields, text. repeat split; assumption.
    + unfold except_Exception. destruct (is_Exception e) eqn:He.
      * do 5 right; left. exists m, fields, e. repeat split; auto.
      * do 6 right. exists m, fields, e. repeat split; auto.
    + unfold except_Exception. destruct (is_Exception e) eqn:He.
      * do 5 right; left. exists m, fields, e. repeat split; auto.
      * do 6 right. exists m, fields, e. repeat split; auto.
  - do 3 right; left. exists m, fields. repeat split; [exact Ht|].
    apply get_farming_tips_falsy, Ht.
Qed.

End TipRuns.

(** A body that is valid JSON but no object ([null], a number, a string, a
    list) makes [data.get] raise [AttributeError] outside the [try]: the
    exception leaves the view, nothing is sent and nothing is printed. *)
Theorem non_object_body_raises
    (py_str : json -> str) (m : GenerativeModel) (data : json) :
  (forall fields, data <> JObj fields) ->
  get_farming_tips py_str (Some m) (GetJsonReturns data)
  = Run (Propagates
           (Exn true (lit "'" ++ lit (type_name data)
                      ++ lit "' object has no attribute 'get'")))
        [] [].
Proof.
  intros H. destruct data; try reflexivity. exfalso. exact (H fields eq_refl).
Qed.

Lemma non_object_body_raises_witness :
  get_farming_tips (fun _ => []) (Some (answering [])) (GetJsonReturns JNull)
  = Run (Propagates (Exn true (lit "'NoneType' object has no attribute 'get'"))) [] [].
Proof.
  apply (non_object_body_raises (fun _ => []) (answering []) JNull).
  intros fields. discriminate.
Defined.

(** An exception leaves the view only in three ways: [request.get_json()]
    raised it, the body was no object, or the external call raised
    something that is no [Exception].  No [Exception] of the external call
    ever leaves it, and nothing leaves it when the client is missing. *)
Theorem what_leaves_the_view
    (py_str : json -> str) (model : option GenerativeModel)
    (request : get_json_result) (e : exn) :
  result (get_farming_tips py_str model request) = Propagates e ->
  exists m, model = Some m /\
    (request = GetJsonRaises e \/
     (exists data, request = GetJsonReturns data /\
                   (forall fields, data <> JObj fields) /\
                   e = AttributeError data "get") \/
     (exists fields, request = GetJsonReturns (JObj fields) /\
                     is_Exception e = false /\
                     (generate_content m (prompt_for py_str fields) = CallRaises e \/
                      generate_content m (prompt_for py_str fields)
                      = CallReturns (TextRaises e)))).
Proof.
  intros H.
  destruct (get_farming_tips_cases py_str model request)
    as [(_ & E) | [(m & e' & -> & -> & E) | [(m & data & -> & -> & Hd & E)
      | [(m & fields & _ & _ & _ & E) | [(m & fields & text & _ & _ & _ & _ & E)
      | [(m & fields & e' & _ & _ & _ & _ & _ & E)
      | (m & fields & e' & -> & -> & _ & Hg & He & E)]]]]]];
    rewrite E in H; cbn [result] in H; try discriminate H;
    injection H as <-; exists m; split; try reflexivity.
  - left; reflexivity.
  - right; left. exists data. repeat split; assumption.
  - right; right. exists fields. repeat split; assumption.
Qed.

Lemma what_leaves_the_view_witness :
  exists m, Some (failing (Exn false [])) = Some m /\
    (tip_request (JStr (lit "Rice")) = GetJsonRaises (Exn false []) \/
     (exists data, tip_request (JStr (lit "Rice")) = GetJsonReturns data /\
                   (forall fields, data <> JObj fields) /\
                   Exn false [] = AttributeError data "get") \/
     (exists fields, tip_request (JStr (lit "Rice")) = GetJsonReturns (JObj fields) /\
                     is_Exception (Exn false []) = false /\
                     (generate_content m (prompt_for (fun _ => []) fields)
                      = CallRaises (Exn false []) \/
                      generate_content m (prompt_for (fun _ => []) fields)
                      = CallReturns (TextRaises (Exn false []))))).
Proof.
  apply (what_leaves_the_view (fun _ => []) (Some (failing (Exn false [])))
           (tip_request (JStr (lit "Rice"))) (Exn false [])).
  reflexivity.
Defined.

(** Whatever the request, a response of the view is one of four: 200 with
    a cleaned text under [tips], 400 [Crop name is required], 500
    [Gemini API not configured] or 500 [Failed to get tips from Gemini
    API]. *)
Theorem the_four_responses
    (py_str : json -> str) (model : option GenerativeModel)
    (request : get_json_result) (status : Z) (body : json) :
  result (get_farming_tips py_str model request) = Responds status body ->
  (status = 200%Z /\
   exists text, body = JObj [(lit "tips", JStr (cleaned_tips text))]) \/
  (status = 400%Z /\ body = error_body "Crop name is required") \/
  (status = 500%Z /\
   (body = error_body "Gemini API not configured" \/
    body = error_body "Failed to get tips from Gemini API")).
Proof.
  intros H.
  destruct (get_farming_tips_cases py_str model request)
    as [(_ & E) | [(m & e' & _ & _ & E) | [(m & data & _ & _ & _ & E)
      | [(m & fields & _ & _ & _ & E) | [(m & fields & text & _ & _ & _ & _ & E)
      | [(m & fields & e' & _ & _ & _ & _ & _ & E)
      | (m & fields & e' & _ & _ & _ & _ & _ & E)]]]]]];
    rewrite E in H; cbn [result] in H; try discriminate H;
    injection H as <- <-.
  - right; right. split; [reflexivity | left; reflexivity].
  - right; left. split; reflexivity.
  - left. split; [reflexivity | exists text; reflexivity].
  - right; right. split; [reflexivity | right; reflexivity].
Qed.

Lemma the_four_responses_witness :
  (400%Z = 200%Z /\
   exists text, error_body "Crop name is required"
                = JObj [(lit "tips", JStr (cleaned_tips text))]) \/
  (400%Z = 400%Z /\ error_body "Crop name is required" = error_body "Crop name is required") \/
  (400%Z = 500%Z /\
   (error_body "Crop name is required" = error_body "Gemini API not configured" \/
    error_body "Crop name is required" = error_body "Failed to get tips from Gemini API")).
Proof.
  apply (the_four_responses (fun _ => []) (Some (answering [])) (tip_request JNull)
           400%Z (error_body "Crop name is required")).
  reflexivity.
Defined.

(** The external service is called at most once for a request, and
    exactly when the client is in place, the body is an object and its
    [cropName] is truthy; then the call is made whether or not it fails. *)
Theorem the_external_calls
    (py_str : json -> str) (model : option GenerativeModel)
    (request : get_json_result) :
  calls (get_farming_tips py_str model request)
  = match model, request with
    | Some _, GetJsonReturns (JObj fields) =>
        if truthy (dict_get (lit "cropName") fields)
        then [prompt_for py_str fields]
        else []
    | _, _ => []
    end.
Proof.
  destruct (get_farming_tips_cases py_str model request)
    as [(-> & E) | [(m & e' & -> & -> & E) | [(m & data & -> & -> & Hd & E)
      | [(m & fields & -> & -> & Ht & E) | [(m & fields & text & -> & -> & Ht & _ & E)
      | [(m & fields & e' & -> & -> & Ht & _ & _ & E)
      | (m & fields & e' & -> & -> & Ht & _ & _ & E)]]]]]];
    rewrite E; cbn [calls]; try rewrite Ht; try reflexivity.
  destruct data; try reflexivity. exfalso. exact (Hd fields eq_refl).
Qed.

(** With the client in place and an object for a body, the answer is 400
    exactly when [cropName] is falsy: no truthy value is turned down,
    whatever its type, and a string of blanks counts as a name. *)
Theorem rejected_iff_falsy
    (py_str : json -> str) (m : GenerativeModel) (fields : list (str * json)) :
  (exists body,
     result (get_farming_tips py_str (Some m) (GetJsonReturns (JObj fields)))
     = Responds 400 body)
  <-> truthy (dict_get (lit "cropName") fields) = false.
Proof.
  split.
  - intros [body H].
    destruct (truthy (dict_get (lit "cropName") fields)) eqn:Ht; [|reflexivity].
    rewrite get_farming_tips_call in H by exact Ht. cbv zeta in H.
    destruct (generate_content m _) as [[text|e]|e];
      unfold except_Exception in H; try destruct (is_Exception e);
      cbn [result] in H; discriminate H.
  - intros Ht. eexists. rewrite get_farming_tips_falsy by exact Ht. reflexivity.
Qed.


Lemma dict_get_filter (key : str) (fields : list (str * json)) :
  dict_get key (filter (fun field => eqb (fst field) key) fields)
  = dict_get key fields.
Proof.
  induction fields as [|[k v] rest IH]; [reflexivity|].
  cbn [filter fst dict_get]. destruct (eqb k key) eqn:E.
  - cbn [dict_get]. rewrite E. reflexivity.
  - exact IH.
Qed.

(** The view reads nothing of the body but [cropName]: with every other
    field taken out of the body the run is the same. *)
Theorem other_fields_ignored
    (py_str : json -> str) (model : option GenerativeModel)
    (fields : list (str * json)) :
  get_farming_tips py_str model (GetJsonReturns (JObj fields))
  = get_farming_tips py_str model
      (GetJsonReturns (JObj (filter is_crop_field fields))).
Proof.
  destruct model as [m|]; [|reflexivity].
  cbn [get_farming_tips py_get].
  unfold is_crop_field. rewrite dict_get_filter. reflexivity.
Qed.

(** * What the clean-up takes out *)

Section ErasedFacts.

Variable P : char -> bool.

Lemma erased_refl (s : str) : erased P s s.
Proof. induction s; constructor; assumption. Qed.

Lemma erased_trans (s r q : str) : erased P s r -> erased P r q -> erased P s q.
Proof.
  intros H. revert q. induction H as [|c s r H IH|c s r Hc H IH]; intros q Hq.
  - exact Hq.
  - inversion Hq; subst.
    + apply erased_keep, IH. assumption.
    + apply erased_drop; [assumption|]. apply IH. assumption.
  - apply erased_drop; [exact Hc|]. apply IH, Hq.
Qed.

Lemma erased_drop_prefix (a s r : str) :
  forallb P a = true -> erased P s r -> erased P (a ++ s) r.
Proof.
  induction a as [|c a IH]; intros Ha H; [exact H|].
  cbn [forallb] in Ha. apply andb_true_iff in Ha as [Hc Ha].
  cbn [app]. apply erased_drop; [exact Hc|]. apply IH; assumption.
Qed.

Lemma erased_keep_prefix (a s r : str) : erased P s r -> erased P (a ++ s) (a ++ r).
Proof. intros H. induction a; [exact H|]. cbn [app]. apply erased_keep. assumption. Qed.

Lemma erased_all (a : str) : forallb P a = true -> erased P a [].
Proof.
  intros H. rewrite <- (app_nil_r a). apply erased_drop_prefix; [exact H|constructor].
Qed.

Lemma erased_length (s r : str) : erased P s r -> length r <= length s.
Proof. induction 1; simpl; lia. Qed.

(** What [P] spares is all still there, in its order. *)
Lemma erased_filter (s r : str) :
  erased P s r ->
  filter (fun c => negb (P c)) r = filter (fun c => negb (P c)) s.
Proof.
  induction 1 as [|c s r H IH|c s r Hc H IH]; [reflexivity| |].
  - cbn [filter]. rewrite IH. reflexivity.
  - cbn [filter]. rewrite Hc. exact IH.
Qed.

(** Replacing a text made of [P]-characters by nothing erases only such. *)
Lemma replace_scan_erased (old : str) :
  old <> [] -> forallb P old = true ->
  forall s, erased P s (replace_scan old [] 0 s).
Proof.
  intros Hne Hold s.
  assert (H : forall n s, length s <= n -> erased P s (replace_scan old [] 0 s)).
  { clear s. induction n as [|n IH]; intros s Hn.
    - destruct s; [constructor | simpl in Hn; lia].
    - destruct s as [|c s]; [constructor|].
      destruct (startswith old (c :: s)) eqn:E.
      + apply startswith_spec in E as [b E]. rewrite E.
        rewrite replace_scan_match by exact Hne. cbn [app].
        apply erased_drop_prefix; [exact Hold|]. apply IH.
        apply (f_equal (@length char)) in E. rewrite length_app in E.
        destruct old; [congruence|]. simpl in *. lia.
      + rewrite replace_scan_pass by exact E. apply erased_keep, IH.
        simpl in Hn. lia. }
  apply (H (length s)). lia.
Qed.

End ErasedFacts.

Lemma erased_weaken (P Q : char -> bool) (s r : str) :
  (forall c, P c = true -> Q c = true) -> erased P s r -> erased Q s r.
Proof.
  intros HPQ. induction 1; constructor; auto.
Qed.

Section StripErases.

Lemma lstrip_cut (s : str) :
  exists a, s = a ++ lstrip s /\ forallb isspace a = true.
Proof.
  induction s as [|c s (a & E & Ha)]; [exists []; split; reflexivity|].
  simpl. destruct (isspace c) eqn:Ec.
  - exists (c :: a). split; [simpl; f_equal; exact E|].
    simpl. rewrite Ec. exact Ha.
  - exists []. split; reflexivity.
Qed.

Lemma forallb_rev (P : char -> bool) (s : str) :
  forallb P (rev s) = forallb P s.
Proof.
  induction s as [|c s IH]; [reflexivity|].
  simpl. rewrite forallb_app, IH. simpl. rewrite andb_true_r. apply andb_comm.
Qed.

Lemma rstrip_cut (s : str) :
  exists b, s = rstrip s ++ b /\ forallb isspace b = true.
Proof.
  unfold rstrip. destruct (lstrip_cut (rev s)) as (a & E & Ha).
  exists (rev a). split.
  - rewrite <- rev_app_distr, <- E, rev_involutive. reflexivity.
  - rewrite forallb_rev. exact Ha.
Qed.

Lemma strip_erased (s : str) : erased isspace s (strip s).
Proof.
  unfold strip. destruct (lstrip_cut s) as (a & Ea & Ha).
  destruct (rstrip_cut (lstrip s)) as (b & Eb & Hb).
  rewrite Ea at 1. apply erased_drop_prefix; [exact Ha|].
  rewrite Eb at 1. rewrite <- (app_nil_r (rstrip (lstrip s))) at 2.
  apply erased_keep_prefix, erased_all, Hb.
Qed.

Lemma lstrip_blank (s : str) : forallb isspace s = true -> lstrip s = [].
Proof.
  induction s as [|c s IH]; [reflexivity|].
  simpl. intros H. apply andb_true_iff in H as [-> H]. apply IH, H.
Qed.

Lemma strip_blank (s : str) : forallb isspace s = true -> strip s = [].
Proof. intros H. unfold strip. rewrite lstrip_blank by exact H. reflexivity. Qed.

End StripErases.

(** The clean-up only takes characters out, and only white space,
    backticks and the letters of [html]: the cleaned text is never longer
    than the answer, and every other character of the answer is in it, in
    the order of the answer. *)
Theorem cleaned_tips_only_erases (text : str) :
  erased removable text (cleaned_tips text) /\
  length (cleaned_tips text) <= length text /\
  filter (fun c => negb (removable c)) (cleaned_tips text)
  = filter (fun c => negb (removable c)) text.
Proof.
  assert (H : erased removable text (cleaned_tips text)).
  { unfold cleaned_tips.
    apply erased_trans with (replace fence_html [] text).
    - apply (replace_scan_erased removable fence_html); [discriminate|reflexivity].
    - apply erased_trans with (replace fence [] (replace fence_html [] text)).
      + apply (replace_scan_erased removable fence); [discriminate|reflexivity].
      + apply erased_weaken with isspace; [|apply strip_erased].
        intros c Hc. unfold removable. rewrite Hc. reflexivity. }
  split; [exact H|]. split; [apply (erased_length _ _ _ H) | apply erased_filter, H].
Qed.

(** An answer without a fence is trimmed and not changed otherwise. *)
Theorem cleaned_tips_without_fence (text : str) :
  ~ occurs fence text -> cleaned_tips text = strip text.
Proof.
  intros Hf. apply contains_false in Hf. unfold cleaned_tips.
  rewrite (replace_absent _ _ _ (fence_free_html_free _ Hf)).
  rewrite (replace_absent _ _ _ Hf). reflexivity.
Qed.

Lemma cleaned_tips_without_fence_witness :
  cleaned_tips (nl ++ lit "  <ul><li>`neem` oil</li></ul> " ++ nl)
  = lit "<ul><li>`neem` oil</li></ul>".
Proof.
  apply (cleaned_tips_without_fence (nl ++ lit "  <ul><li>`neem` oil</li></ul> " ++ nl)).
  apply contains_false. vm_compute. reflexivity.
Defined.

Section BlankFacts.

Lemma blank_no_backtick (u : str) : forallb isspace u = true -> ~ In backtick u.
Proof.
  intros H I. rewrite forallb_forall in H. specialize (H _ I). discriminate H.
Qed.

Lemma blank_not_html (u : str) :
  forallb isspace u = true -> startswith (lit "html") u = false.
Proof.
  destruct u as [|c u]; [reflexivity|]. intros H.
  cbn [forallb] in H. apply andb_true_iff in H as [Hc _].
  change (lit "html") with (104%N :: lit "tml"). rewrite startswith_cons.
  destruct (char_eqb 104%N c) eqn:E; [|reflexivity].
  apply char_eqb_eq in E. subst c. discriminate Hc.
Qed.

Lemma blank_unfenced (first : str) (rest : list (marker * str)) :
  forallb isspace first = true ->
  Forall (fun mu => forallb isspace (snd mu) = true) rest ->
  forallb isspace (unfenced first rest) = true.
Proof.
  intros Hf Hr. unfold unfenced. rewrite forallb_app, Hf. cbn [andb].
  induction Hr as [|mu rest Hmu Hr IH]; [reflexivity|].
  cbn [map concat]. cbv beta in Hmu. rewrite forallb_app.
  apply andb_true_iff. split; [exact Hmu | exact IH].
Qed.

End BlankFacts.

(** An answer that holds nothing but fences and white space (an empty
    code block, say) is not taken for a failure: the response is 200 with
    the empty string under [tips]. *)
Theorem blank_answer_gives_empty_tips
    (py_str : json -> str) (m : GenerativeModel) (fields : list (str * json))
    (first : str) (rest : list (marker * str)) :
  truthy (dict_get (lit "cropName") fields) = true ->
  generate_content m (prompt_for py_str fields)
  = CallReturns (TextIs (fenced first rest)) ->
  forallb isspace first = true ->
  Forall (fun mu => forallb isspace (snd mu) = true) rest ->
  result (get_farming_tips py_str (Some m) (GetJsonReturns (JObj fields)))
  = Responds 200 (JObj [(lit "tips", JStr [])]).
Proof.
  intros Ht Hg Hf Hr. unfold prompt_for in Hg.
  rewrite get_farming_tips_call by exact Ht. cbv zeta. rewrite Hg. cbn [result].
  rewrite cleaned_tips_fenced.
  - rewrite strip_blank by (apply blank_unfenced; assumption). reflexivity.
  - apply blank_no_backtick, Hf.
  - eapply Forall_impl; [|exact Hr]. intros mu Hmu. split.
    + apply blank_no_backtick, Hmu.
    + intros _. apply blank_not_html, Hmu.
Qed.

Lemma blank_answer_gives_empty_tips_witness :
  result (get_farming_tips (fun _ => [])
            (Some (answering (lit "```html" ++ nl ++ lit "```" ++ nl)))
            (tip_request (JStr (lit "Rice"))))
  = Responds 200 (JObj [(lit "tips", JStr [])]).
Proof.
  apply (blank_answer_gives_empty_tips (fun _ => [])
           (answering (lit "```html" ++ nl ++ lit "```" ++ nl))
           [(lit "cropName", JStr (lit "Rice"))]
           [] [(FenceHtml, nl); (Fence, nl)]).
  - reflexivity.
  - reflexivity.
  - reflexivity.
  - repeat constructor.
Defined.

(** * Every result of the simulator can occur *)

Section CropDraws.

Context {rng : Type}.
Variable randbelow : nat -> rng -> nat * rng.

(** The first draw, below 5, is the index of the crop; the second, below
    14, is what is added to 85. *)
Lemma analyze_crop_draws (request : get_json_result) (g g1 g2 : rng)
    (i k : nat) (crop : str) :
  randbelow 5 g = (i, g1) ->
  nth_error possible_crops i = Some crop ->
  randbelow 14 g1 = (k, g2) ->
  analyze_crop randbelow request g
  = (Responds 200 (JObj [(lit "crop", JStr crop);
                         (lit "confidence", JInt (85 + Z.of_nat k))]),
     g2).
Proof.
  intros Hi Hc Hk. unfold analyze_crop, choice, randint.
  change (length possible_crops) with 5. cbn [possible_crops].
  fold possible_crops. rewrite Hi, Hc.
  change (98 + 1 - 85)%Z with 14%Z. cbn [Z.ltb Z.compare].
  change (Z.to_nat 14) with 14. rewrite Hk. reflexivity.
Qed.

End CropDraws.

Lemma scripted_randbelow_lt (n : nat) (g : list nat) :
  0 < n -> fst (scripted_randbelow n g) < n.
Proof. intros H. unfold scripted_randbelow. cbn [fst]. apply Nat.mod_upper_bound. lia. Qed.

(** The bounds of the simulator are met: for each of the five crops and
    each confidence from 85 to 98 there is a state of a generator, one
    whose draws stay below their bound, from which the simulator answers
    with exactly that crop and that confidence. *)
Theorem analyze_crop_reaches (request : get_json_result) (crop : str) (confidence : Z) :
  In crop possible_crops -> (85 <= confidence <= 98)%Z ->
  (forall n g, 0 < n -> fst (scripted_randbelow n g) < n) /\
  exists g,
    fst (analyze_crop scripted_randbelow request g)
    = Responds 200 (JObj [(lit "crop", JStr crop);
                          (lit "confidence", JInt confidence)]).
Proof.
  intros Hin Hr. split; [apply scripted_randbelow_lt|].
  apply In_nth_error in Hin as [i Hi].
  assert (Hlt : i < 5).
  { change 5 with (length possible_crops). apply nth_error_Some. congruence. }
  exists [i; Z.to_nat (confidence - 85)].
  rewrite (analyze_crop_draws scripted_randbelow request
             [i; Z.to_nat (confidence - 85)] [Z.to_nat (confidence - 85)] []
             i (Z.to_nat (confidence - 85)) crop).
  - cbn [fst]. repeat f_equal. lia.
  - unfold scripted_randbelow. cbn [hd tl]. rewrite Nat.mod_small by exact Hlt. reflexivity.
  - exact Hi.
  - unfold scripted_randbelow. cbn [hd tl]. rewrite Nat.mod_small by lia. reflexivity.
Qed.

Lemma analyze_crop_reaches_witness :
  exists g,
    fst (analyze_crop scripted_randbelow (GetJsonReturns JNull) g)
    = Responds 200 (JObj [(lit "crop", JStr (lit "Mustard"));
                          (lit "confidence", JInt 98)]).
Proof.
  apply (analyze_crop_reaches (GetJsonReturns JNull) (lit "Mustard") 98).
  - cbn [possible_crops In]. tauto.
  - lia.
Defined.

(** * Runs of the statements above *)

Lemma startup_gives_client_iff_witness :
  loaded (gemini_api_configuration (Some (lit "k3y")) (working_genai (answering [])))
  = inr (Some (answering [])).
Proof.
  apply (startup_gives_client_iff (working_genai (answering [])) (Some (lit "k3y"))
           (answering [])).
  exists (lit "k3y"). repeat split. discriminate.
Defined.

Lemma startup_library_calls_witness :
  lit "gemini-pro" = lit "gemini-pro" /\
  exists api_key,
    Some (lit "k3y") = Some api_key /\
    configure (working_genai (answering [])) api_key = None.
Proof.
  apply (proj1 (startup_library_calls (working_genai (answering [])) (Some (lit "k3y")))).
  cbn. tauto.
Defined.

Lemma rejected_iff_falsy_witness :
  exists body,
    result (get_farming_tips (fun _ => []) (Some (answering []))
              (GetJsonReturns (JObj [(lit "cropName", JInt 0)])))
    = Responds 400 body.
Proof.
  apply (rejected_iff_falsy (fun _ => []) (answering []) [(lit "cropName", JInt 0)]).
  reflexivity.
Defined.
